(** * dataline: the conversation router

    A shallow embedding of [backend/dataline/api/conversation/router.py]:
    the streamed [query] endpoint with its deferred
    [commit_and_close_session] hook, and the synchronous [execute_sql]
    (run-sql) endpoint.  Python exceptions are results of an
    exception-and-state monad; the unit of work, the conversation and
    connection repositories and the external databases are explicit state. *)

From stdpp Require Import gmap strings list.
From Stdlib Require Import ZArith Lia.

Set Default Proof Using "Type".
Open Scope string_scope.
Open Scope list_scope.

(** ** Exceptions and computations *)

Inductive ExecutionErrorKind :=
| ConnectionFailure | SqlSyntaxError | PermissionDenied | ExecTimeout | UnknownFailure.

Inductive FlowErrorKind := StepLimitExceeded | ModelUnavailable.

Inductive Exn :=
| CommitError
| RollbackError
| CloseError
| NotFound (what : string)
| ExecutionError (kind : ExecutionErrorKind)
| FlowError (kind : FlowErrorKind)
| ClientDisconnect
| RuntimeError (msg : string).

(** What a Python call produces: a value, or a raised exception. *)
Inductive Result (A : Type) :=
| Returned (a : A)
| Raised (e : Exn).
Arguments Returned {A} a.
Arguments Raised {A} e.

(** A computation over a state [S]. *)
Definition Comp (S A : Type) : Type := S -> Result A * S.

Definition ret {S A} (a : A) : Comp S A := fun s => (Returned a, s).

Definition raise {S A} (e : Exn) : Comp S A := fun s => (Raised e, s).

Definition bind {S A B} (c : Comp S A) (k : A -> Comp S B) : Comp S B :=
  fun s =>
    match c s with
    | (Returned a, s1) => k a s1
    | (Raised e, s1) => (Raised e, s1)
    end.

Notation "'let*' x ':=' c1 'in' c2" := (bind c1 (fun x => c2))
  (at level 10, x pattern, c1 at level 100, c2 at level 200).

(** [try: body  except Exception as e: handler e]. *)
Definition try_except {S A} (body : Comp S A) (handler : Exn -> Comp S A) : Comp S A :=
  fun s =>
    match body s with
    | (Returned a, s1) => (Returned a, s1)
    | (Raised e, s1) => handler e s1
    end.

(** [try: body  finally: cleanup]: the cleanup always runs; an exception
    raised by the cleanup replaces whatever the body produced. *)
Definition try_finally {S A} (body : Comp S A) (cleanup : Comp S unit) : Comp S A :=
  fun s =>
    match body s with
    | (r, s1) =>
        match cleanup s1 with
        | (Returned _, s2) => (r, s2)
        | (Raised e, s2) => (Raised e, s2)
        end
    end.

(** ** Data model *)

Inductive Value :=
| VNull
| VInt (z : Z)
| VStr (s : string).

#[global] Instance Value_eq_dec : EqDecision Value.
Proof. solve_decision. Defined.

(** The executor's answer: column names and row tuples. *)
Record QueryRunData := mkQueryRunData {
  qrd_columns : list string;
  qrd_rows : list (list Value)
}.

(** [SQLQueryRunResult]; [secure] is the masking flag of the data model,
    unset unless the caller passes it. *)
Record SQLQueryRunResult := mkSQLQueryRunResult {
  columns : list string;
  rows : list (list Value);
  for_chart : bool;
  linked_id : N;
  secure : bool
}.

(** [ResultOut], the transport form of a result. *)
Record ResultOut := mkResultOut {
  out_columns : list string;
  out_rows : list (list Value);
  out_for_chart : bool;
  out_linked_id : N
}.

Inductive StreamEvent :=
| ReasoningStep (text : string)
| SQLProposed (statement : string)
| SQLResult (result : ResultOut)
| FinalAnswer (text : string)
| ErrorEvent (e : Exn).

(** Rows of application storage written by a conversation turn. *)
Inductive Row :=
| MessageRow (content : string)
| ResultRow (result : ResultOut).

(** ** The unit of work *)

Inductive SessionOp := OpCommit | OpRollback | OpClose.

#[global] Instance SessionOp_eq_dec : EqDecision SessionOp.
Proof. solve_decision. Defined.

(** What happened during an invocation, in order. *)
Inductive Happening :=
| Delivered (ev : StreamEvent)
| SessionCall (op : SessionOp).

(** Which session calls raise in this run (the session is an external
    object; any of its calls may fail). *)
Record Faults := mkFaults {
  commit_fails : bool;
  rollback_fails : bool;
  close_fails : bool
}.

(** Application storage together with the one session of the invocation:
    [storage] is what any later read sees, [buffered] the writes held by
    the session, [history] the trace of deliveries and session calls. *)
Record UnitOfWork := mkUnitOfWork {
  storage : list Row;
  buffered : list Row;
  closed : bool;
  history : list Happening
}.

Definition record (h : Happening) (u : UnitOfWork) : UnitOfWork :=
  {| storage := storage u; buffered := buffered u; closed := closed u;
     history := history u ++ [h] |}.

(** [session.add]: buffer writes, nothing reaches storage. *)
Definition session_add (ws : list Row) : Comp UnitOfWork unit :=
  fun u => (Returned tt,
            {| storage := storage u; buffered := buffered u ++ ws;
               closed := closed u; history := history u |}).

(** [session.commit()]: flush the buffered writes to storage, or raise and
    leave storage as it was. *)
Definition session_commit (f : Faults) : Comp UnitOfWork unit :=
  fun u =>
    let u := record (SessionCall OpCommit) u in
    if commit_fails f then (Raised CommitError, u)
    else (Returned tt,
          {| storage := storage u ++ buffered u; buffered := [];
             closed := closed u; history := history u |}).

(** [session.rollback()]: drop the buffered writes. *)
Definition session_rollback (f : Faults) : Comp UnitOfWork unit :=
  fun u =>
    let u := record (SessionCall OpRollback) u in
    if rollback_fails f then (Raised RollbackError, u)
    else (Returned tt,
          {| storage := storage u; buffered := [];
             closed := closed u; history := history u |}).

(** [session.close()]: release the session; uncommitted writes are lost. *)
Definition session_close (f : Faults) : Comp UnitOfWork unit :=
  fun u =>
    let u := record (SessionCall OpClose) u in
    if close_fails f then (Raised CloseError, u)
    else (Returned tt,
          {| storage := storage u; buffered := [];
             closed := true; history := history u |}).

(** The hook defined inside [query]:
<<
    try:    await session.commit()
    except Exception:
            await session.rollback()
            raise
    finally:
            await session.close()
>> *)
Definition commit_and_close_session (f : Faults) : Comp UnitOfWork unit :=
  try_finally
    (try_except (session_commit f)
                (fun e => let* _ := session_rollback f in raise e))
    (session_close f).

(** The calls the hook makes on the session, in order. *)
Definition hook_calls (f : Faults) : list SessionOp :=
  if commit_fails f then [OpCommit; OpRollback; OpClose] else [OpCommit; OpClose].

(** What the hook hands back to its caller. *)
Definition hook_result (f : Faults) : Result unit :=
  if close_fails f then Raised CloseError
  else if commit_fails f then
         (if rollback_fails f then Raised RollbackError else Raised CommitError)
  else Returned tt.

(** ** The streamed endpoint *)

(** Modelled from the spec: the lazy event sequence that
    [conversation_service.query] returns (the service is not part of the
    router).  Each resumption buffers some writes on the session and then
    yields one event, finishes, or raises; writes are only ever buffered,
    the producer never commits. *)
Inductive Producer :=
| Yield (writes : list Row) (ev : StreamEvent) (rest : Producer)
| Stop (writes : list Row)
| Fail (writes : list Row) (e : Exn).

Record MessageOptions := mkMessageOptions { secure_data : bool }.

(** [ConversationService.query(session, conversation_id, query, secure_data)]. *)
Definition QueryService : Type := N -> string -> bool -> Producer.

Record StreamingResponse := mkStreamingResponse {
  body_iterator : Producer;
  media_type : string;
  background : Comp UnitOfWork unit
}.

(** The [query] endpoint: it drives nothing itself, it hands the service's
    event sequence to the framework with [commit_and_close_session] as the
    background task. *)
Definition query (session : Faults) (conversation_service : QueryService)
    (conversation_id : N) (query : string) (message_options : MessageOptions)
    : StreamingResponse :=
  {| body_iterator :=
       conversation_service conversation_id query (secure_data message_options);
     media_type := "text/event-stream";
     background := commit_and_close_session session |}.

(** How the consumer behaves: it reads the whole sequence, or its
    connection drops once [k] events have reached it. *)
Inductive Consumer :=
| DrainsAll
| DisconnectsAfter (k : nat).

Inductive StreamEnd :=
| BodyExhausted
| BodyRaised (e : Exn)
| ClientGone.

Definition still_connected (c : Consumer) : bool :=
  match c with
  | DisconnectsAfter 0 => false
  | _ => true
  end.

Definition after_delivery (c : Consumer) : Consumer :=
  match c with
  | DrainsAll => DrainsAll
  | DisconnectsAfter k => DisconnectsAfter (pred k)
  end.

Definition buffer (ws : list Row) (u : UnitOfWork) : UnitOfWork :=
  snd (session_add ws u).

(** The framework's body loop, [async for chunk in body_iterator: send(chunk)]:
    the producer is resumed only when the previous event has been delivered. *)
Fixpoint stream_response (body : Producer) (c : Consumer) (u : UnitOfWork)
    : StreamEnd * UnitOfWork :=
  if still_connected c then
    match body with
    | Yield ws ev rest =>
        stream_response rest (after_delivery c) (record (Delivered ev) (buffer ws u))
    | Stop ws => (BodyExhausted, buffer ws u)
    | Fail ws e => (BodyRaised e, buffer ws u)
    end
  else (ClientGone, u).

(** The one point on which framework releases differ: whether the
    background task is still awaited when the client has gone away. *)
Record Framework := mkFramework { background_after_disconnect : bool }.

(** [StreamingResponse.__call__]: stream the body, then await the
    background task.  An exception of the body propagates and the
    background task is not run. *)
Definition serve (fw : Framework) (resp : StreamingResponse) (c : Consumer)
    : Comp UnitOfWork unit :=
  fun u =>
    match stream_response (body_iterator resp) c u with
    | (BodyExhausted, u1) => background resp u1
    | (BodyRaised e, u1) => (Raised e, u1)
    | (ClientGone, u1) =>
        if background_after_disconnect fw then background resp u1
        else (Raised ClientDisconnect, u1)
    end.

(** Modelled from the spec: [get_session_no_commit] (not part of the
    router) yields a unit of work created at request start, bound to this
    one invocation, and does not commit or close it itself. *)
Definition get_session_no_commit (store : list Row) : UnitOfWork :=
  {| storage := store; buffered := []; closed := false; history := [] |}.

(** One streamed query invocation, from request to the end of the response. *)
Definition invocation (fw : Framework) (session : Faults)
    (conversation_service : QueryService) (conversation_id : N) (q : string)
    (message_options : MessageOptions) (c : Consumer) (store : list Row)
    : Result unit * UnitOfWork :=
  serve fw (query session conversation_service conversation_id q message_options) c
        (get_session_no_commit store).

(** Observations on a trace. *)
Definition session_ops (h : list Happening) : list SessionOp :=
  omap (fun x => match x with SessionCall op => Some op | Delivered _ => None end) h.

Definition deliveries (h : list Happening) : list StreamEvent :=
  omap (fun x => match x with Delivered ev => Some ev | SessionCall _ => None end) h.

(** A commit-or-rollback decision is one entry into the hook's [try]:
    one [commit] call, settled as commit or, when it raises, as rollback. *)
Definition decisions (h : list Happening) : nat :=
  length (filter (fun op => op = OpCommit) (session_ops h)).

Fixpoint events_of (p : Producer) : list StreamEvent :=
  match p with
  | Yield _ ev rest => ev :: events_of rest
  | Stop _ | Fail _ _ => []
  end.

(** The writes the producer has buffered once [k] events were delivered
    and it was left suspended there. *)
Fixpoint writes_before (k : nat) (p : Producer) : list Row :=
  match k, p with
  | S k', Yield ws _ rest => ws ++ writes_before k' rest
  | _, _ => []
  end.

Fixpoint all_writes (p : Producer) : list Row :=
  match p with
  | Yield ws _ rest => ws ++ all_writes rest
  | Stop ws | Fail ws _ => ws
  end.

Fixpoint raises (p : Producer) : bool :=
  match p with
  | Yield _ _ rest => raises rest
  | Stop _ => false
  | Fail _ _ => true
  end.

(** ** The run-sql endpoint *)

Record Conversation := mkConversation {
  connection_id : N;
  conversation_name : string
}.

Record Connection := mkConnection {
  dsn : string;
  connection_name : string
}.

(** An external database, reduced to one table. *)
Record Database := mkDatabase {
  table_columns : list string;
  table_rows : list (list Value)
}.

(** Application state read by the endpoint, and the external databases
    reachable by DSN. *)
Record App := mkApp {
  conversations : gmap N Conversation;
  connections : gmap N Connection;
  databases : gmap string Database
}.

Record SuccessResponse (A : Type) := mkSuccessResponse { data : A }.
Arguments mkSuccessResponse {A} data.
Arguments data {A} _.

(** [conversation_service.get_conversation]: raises when the id is unknown. *)
Definition get_conversation (conversation_id : N) : Comp App Conversation :=
  fun a =>
    match conversations a !! conversation_id with
    | Some c => (Returned c, a)
    | None => (Raised (NotFound "conversation"), a)
    end.

(** [connection_service.get_connection]. *)
Definition get_connection (id : N) : Comp App Connection :=
  fun a =>
    match connections a !! id with
    | Some c => (Returned c, a)
    | None => (Raised (NotFound "connection"), a)
    end.

(** [SQLDatabase.from_uri]: a handle on the database behind a DSN.
    Building the handle is taken to succeed; a database that cannot be
    reached shows when the statement runs. *)
Definition from_uri (uri : string) : string := uri.

Definition default_row_limit : nat := 10.

Definition wrap_error (e : Exn) : Exn :=
  match e with
  | ExecutionError k => ExecutionError k
  | _ => ExecutionError UnknownFailure
  end.

Definition set_database (uri : string) (d : Database) (a : App) : App :=
  {| conversations := conversations a; connections := connections a;
     databases := <[uri := d]> (databases a) |}.

Section RunSQL.

(** The driver of the external database: what a statement returns and
    what it leaves behind. *)
Variable driver : string -> Comp Database QueryRunData.

(** The masked placeholder of the Result Model. *)
Variable placeholder : Value.

(** Modelled from the spec: the Query Executor of section 4.1, which
    [dataline.services.llm_flow.toolkit] provides outside the router.
    It runs the statement, materialises at most [rowLimit] rows and
    always returns the full column list; driver failures are wrapped
    into [ExecutionError].  With [execute = false] the statement is only
    planned: nothing is applied and an empty result with the statement's
    columns is returned. *)
Definition query_executor (db : string) (statement : string)
    (rowLimit : nat) (execute : bool) : Comp App QueryRunData :=
  fun a =>
    match databases a !! db with
    | None => (Raised (ExecutionError ConnectionFailure), a)
    | Some d =>
        match driver statement d with
        | (Returned r, d') =>
            if execute then
              (Returned {| qrd_columns := qrd_columns r;
                           qrd_rows := take rowLimit (qrd_rows r) |},
               set_database db d' a)
            else
              (Returned {| qrd_columns := qrd_columns r; qrd_rows := [] |}, a)
        | (Raised e, d') =>
            (Raised (wrap_error e), if execute then set_database db d' a else a)
        end
    end.

(** [execute_sql_query(db, sql)], as the endpoint calls it: no limit and
    no execute flag are passed, so the executor's defaults apply. *)
Definition execute_sql_query (db : string) (sql : string) : Comp App QueryRunData :=
  query_executor db sql default_row_limit true.

Definition mask_rows (rs : list (list Value)) : list (list Value) :=
  map (map (fun _ => placeholder)) rs.

(** Modelled from the spec: the Result Model's
    [serialize(result, secure)] of section 4.2 (the schema classes are
    not part of the router).  Row values are masked when [secure] is
    set; columns, [for_chart] and [linked_id] pass through. *)
Definition serialize (result : SQLQueryRunResult) (secure_flag : bool) : ResultOut :=
  {| out_columns := columns result;
     out_rows := if secure_flag then mask_rows (rows result) else rows result;
     out_for_chart := for_chart result;
     out_linked_id := linked_id result |}.

(** [result.serialize_result()]: serialisation under the result's own flag. *)
Definition serialize_result (result : SQLQueryRunResult) : ResultOut :=
  serialize result (secure result).

(** The [execute_sql] endpoint.  [limit] and [execute] are accepted from
    the caller; the body passes neither on. *)
Definition execute_sql (conversation_id : N) (sql : string) (linked_id : N)
    (limit : Z) (execute : bool) : Comp App (SuccessResponse ResultOut) :=
  let* conversation := get_conversation conversation_id in
  let connection_id := connection_id conversation in
  let* connection := get_connection connection_id in
  let db := from_uri (dsn connection) in
  let* query_run_data := execute_sql_query db sql in
  let result :=
    {| columns := qrd_columns query_run_data;
       rows := qrd_rows query_run_data;
       for_chart := false;
       linked_id := linked_id;
       secure := false |} in
  ret (mkSuccessResponse (serialize_result result)).


End RunSQL.

(** A small driver to run the endpoint on: a full-table read, a delete, and
    a syntax error for everything else. *)
Definition table_driver (statement : string) : Comp Database QueryRunData :=
  fun d =>
    if String.eqb statement "SELECT * FROM t" then
      (Returned {| qrd_columns := table_columns d; qrd_rows := table_rows d |}, d)
    else if String.eqb statement "DELETE FROM t" then
      (Returned {| qrd_columns := []; qrd_rows := [] |},
       {| table_columns := table_columns d; table_rows := [] |})
    else (Raised (ExecutionError SqlSyntaxError), d).

Definition five_rows : Database :=
  {| table_columns := ["id"; "name"; "email"; "age"; "city"];
     table_rows :=
       [ [VInt 1; VStr "ann"; VStr "a@x"; VInt 31; VStr "Oslo"];
         [VInt 2; VStr "bob"; VStr "b@x"; VInt 42; VStr "Rome"];
         [VInt 3; VStr "cy"; VStr "c@x"; VInt 27; VStr "Lima"];
         [VInt 4; VStr "dee"; VStr "d@x"; VInt 55; VStr "Kyiv"];
         [VInt 5; VStr "eve"; VStr "e@x"; VInt 38; VStr "Bern"] ] |}.

Definition sample_app : App :=
  {| conversations := {[ 1%N := {| connection_id := 7%N; conversation_name := "demo" |} ]};
     connections := {[ 7%N := {| dsn := "sqlite:///demo.db"; connection_name := "demo" |} ]};
     databases := {[ "sqlite:///demo.db" := five_rows ]} |}.

Definition stars : Value := VStr "********".

(** ** The Flow Step Engine *)

Module Flow.

Inductive Action :=
| ProposeSQL (statement : string)
| AskClarification (text : string)
| GiveFinalAnswer (text : string).

Inductive Observation :=
| Observed (r : QueryRunData)
| ObservedError (e : Exn).

Inductive State :=
| Init
| Proposing
| Executing (statement : string)
| Observing (o : Observation)
| Finalizing (text : string)
| Done
| Failed (k : FlowErrorKind).

Record Engine := mkEngine {
  state : State;
  context : list Observation;
  cycles : nat;
  emitted : list StreamEvent
}.

Definition is_terminal (s : State) : bool :=
  match s with
  | Done | Failed _ => true
  | _ => false
  end.

Definition observation_event (o : Observation) : StreamEvent :=
  match o with
  | Observed r =>
      SQLResult {| out_columns := qrd_columns r; out_rows := qrd_rows r;
                   out_for_chart := false; out_linked_id := 0%N |}
  | ObservedError e => ErrorEvent e
  end.

Section Engine.

(** The step ceiling the engine is configured with. *)
Variable max_steps : nat.

(** The language-model capability: the next action for a context. *)
Variable model : list Observation -> Action.

(** The Query Executor as the engine sees it. *)
Variable executor : string -> Observation.

Definition move (e : Engine) (s : State) (ev : StreamEvent) : Engine :=
  {| state := s; context := context e; cycles := cycles e;
     emitted := emitted e ++ [ev] |}.

(** Modelled from the spec: one transition of the state machine of
    section 4.3 (the engine lives in the service layer, outside the
    router).  Every transition emits exactly one event; the ceiling is
    checked on entry to a proposing cycle, and a cycle is counted when
    the model is asked. *)
Definition step (e : Engine) : Engine :=
  match state e with
  | Init => move e Proposing (ReasoningStep "context loaded")
  | Proposing =>
      if decide (max_steps <= cycles e) then
        move e (Failed StepLimitExceeded) (ErrorEvent (FlowError StepLimitExceeded))
      else
        let e' := {| state := state e; context := context e;
                     cycles := S (cycles e); emitted := emitted e |} in
        match model (context e) with
        | ProposeSQL s => move e' (Executing s) (SQLProposed s)
        | AskClarification t => move e' (Finalizing t) (ReasoningStep t)
        | GiveFinalAnswer t => move e' (Finalizing t) (ReasoningStep t)
        end
  | Executing s => move e (Observing (executor s)) (observation_event (executor s))
  | Observing o =>
      {| state := Proposing; context := context e ++ [o]; cycles := cycles e;
         emitted := emitted e ++ [ReasoningStep "observed"] |}
  | Finalizing t => move e Done (FinalAnswer t)
  | Done | Failed _ => e
  end.

Definition start : Engine :=
  {| state := Init; context := []; cycles := 0; emitted := [] |}.

(** The engine loop: transitions until a terminal state, at most
    [fuel] of them. *)
Fixpoint run (fuel : nat) (e : Engine) : Engine :=
  match fuel with
  | 0 => e
  | S n => if is_terminal (state e) then e else run n (step e)
  end.

(** Transitions left before a terminal state, at most. *)
Definition rank (s : State) : nat :=
  match s with
  | Init => 5
  | Executing _ => 4
  | Observing _ => 3
  | Proposing => 2
  | Finalizing _ => 1
  | Done | Failed _ => 0
  end.

Definition measure (e : Engine) : nat :=
  3 * (max_steps - cycles e) + rank (state e).

End Engine.

Definition always_proposes (model : list Observation -> Action) : Prop :=
  forall ctx, exists s, model ctx = ProposeSQL s.

(** The proposing cycles visible in the event sequence. *)
Fixpoint proposals (evs : list StreamEvent) : nat :=
  match evs with
  | [] => 0
  | SQLProposed _ :: rest => S (proposals rest)
  | _ :: rest => proposals rest
  end.

(** A model that never stops proposing, and an executor with an empty answer. *)
Definition stubborn_model : list Observation -> Action :=
  fun _ => ProposeSQL "SELECT 1".

Definition empty_executor : string -> Observation :=
  fun _ => Observed {| qrd_columns := ["?column?"]; qrd_rows := [[VInt 1]] |}.

End Flow.

(** ** The messages endpoint *)

(** The exception a producer ends with, if it ends with one. *)
Fixpoint raised_by (p : Producer) : option Exn :=
  match p with
  | Yield _ _ rest => raised_by rest
  | Stop _ => None
  | Fail _ e => Some e
  end.

Record SuccessListResponse (A : Type) := mkSuccessListResponse { list_data : list A }.
Arguments mkSuccessListResponse {A} list_data.
Arguments list_data {A} _.

(** [[f(x) for x in xs]] with an [f] that may raise: elements are taken
    left to right and the first exception ends the comprehension. *)
Fixpoint comprehension {A B : Type} (f : A -> Result B) (xs : list A) : Result (list B) :=
  match xs with
  | [] => Returned []
  | x :: rest =>
      match f x with
      | Raised e => Raised e
      | Returned y =>
          match comprehension f rest with
          | Raised e => Raised e
          | Returned ys => Returned (y :: ys)
          end
      end
  end.

Section Messages.

(** Whatever the session and the service keep as state. *)
Variable St : Type.

(** Stored messages and their transport form. *)
Variable Message : Type.
Variable MessageWithResultsOut : Type.

(** The conversation as the service loads it, and its [messages]. *)
Variable ConversationWithMessages : Type.
Variable messages : ConversationWithMessages -> list Message.

(** [conversation_service.get_conversation_with_messages]. *)
Variable get_conversation_with_messages : N -> Comp St ConversationWithMessages.

(** [MessageWithResultsOut.model_validate]. *)
Variable model_validate : Message -> Result MessageWithResultsOut.

(** The [get_conversation_messages] endpoint. *)
Definition get_conversation_messages (conversation_id : N)
    : Comp St (SuccessListResponse MessageWithResultsOut) :=
  let* conversation := get_conversation_with_messages conversation_id in
  let* validated :=
    (fun s => (comprehension model_validate (messages conversation), s)) in
  ret (mkSuccessListResponse validated).

End Messages.

(** A stored conversation of text messages; a message validates unless it
    is empty. *)
Definition stored_messages (conversation_id : N) : Comp unit (list string) :=
  fun s =>
    if N.eqb conversation_id 1 then (Returned ["how many users?"; "There are 3 users."], s)
    else if N.eqb conversation_id 2 then (Returned ["hello"; ""; "bye"], s)
    else (Raised (NotFound "conversation"), s).

Definition non_empty_message (m : string) : Result string :=
  if String.eqb m "" then Raised (RuntimeError "validation error") else Returned m.

(** ** Masking on the streamed path *)

(** Modelled from the spec: the Result Model applied to a result that is
    about to leave the process, under the caller's [secure_data]
    (section 4.2: row values masked, columns and flags passed through). *)
Definition secure_result (placeholder : Value) (secure_data : bool) (out : ResultOut)
    : ResultOut :=
  serialize placeholder
    {| columns := out_columns out; rows := out_rows out;
       for_chart := out_for_chart out; linked_id := out_linked_id out;
       secure := secure_data |}
    secure_data.

Definition secure_event (placeholder : Value) (secure_data : bool) (ev : StreamEvent)
    : StreamEvent :=
  match ev with
  | SQLResult out => SQLResult (secure_result placeholder secure_data out)
  | _ => ev
  end.

Definition secure_row (placeholder : Value) (secure_data : bool) (row : Row) : Row :=
  match row with
  | ResultRow out => ResultRow (secure_result placeholder secure_data out)
  | MessageRow _ => row
  end.

(** Modelled from the spec: the conversation service's side of masking
    (the service is not part of the router).  Whatever the flow produces,
    every event the service yields and every row it buffers has gone
    through the Result Model under the caller's [secure_data] first. *)
Fixpoint secure_producer (placeholder : Value) (secure_data : bool) (flow : Producer)
    : Producer :=
  match flow with
  | Yield ws ev rest =>
      Yield (map (secure_row placeholder secure_data) ws)
            (secure_event placeholder secure_data ev)
            (secure_producer placeholder secure_data rest)
  | Stop ws => Stop (map (secure_row placeholder secure_data) ws)
  | Fail ws e => Fail (map (secure_row placeholder secure_data) ws) e
  end.

(** [conversation_service.query] over a flow that yields raw results. *)
Definition masking_service (placeholder : Value) (flow : N -> string -> Producer)
    : QueryService :=
  fun conversation_id question secure_data =>
    secure_producer placeholder secure_data (flow conversation_id question).

(** The result events of a sequence, and the results among stored rows. *)
Definition results_of_events (evs : list StreamEvent) : list ResultOut :=
  omap (fun ev => match ev with SQLResult out => Some out | _ => None end) evs.


(** ** Sample runs *)

Definition no_faults : Faults :=
  {| commit_fails := false; rollback_fails := false; close_fails := false |}.

Definition count_result : ResultOut :=
  {| out_columns := ["count"]; out_rows := [[VInt 3]];
     out_for_chart := false; out_linked_id := 5%N |}.

(** A turn that runs to its final answer. *)
Definition answering_service : QueryService :=
  fun _ question _ =>
    Yield [MessageRow question] (SQLProposed "SELECT COUNT(*) FROM users")
      (Yield [ResultRow count_result] (SQLResult count_result)
         (Yield [MessageRow "There are 3 users."] (FinalAnswer "There are 3 users.")
            (Stop []))).

(** A turn whose producer raises after its first event. *)
Definition failing_service : QueryService :=
  fun _ question _ =>
    Yield [MessageRow question] (SQLProposed "SELECT COUNT(*) FROM users")
      (Fail [ResultRow count_result] (FlowError StepLimitExceeded)).


(** The flow of the answering turn, before the service serialises it. *)
Definition counting_flow : N -> string -> Producer :=
  fun conversation_id question => answering_service conversation_id question false.

Definition plain_options : MessageOptions := {| secure_data := false |}.

Definition secure_options : MessageOptions := {| secure_data := true |}.

Definition awaits_background : Framework := {| background_after_disconnect := true |}.

Definition skips_background : Framework := {| background_after_disconnect := false |}.

(** * Properties *)

(** ** Traces *)

Lemma session_ops_app (h1 h2 : list Happening) :
  session_ops (h1 ++ h2) = session_ops h1 ++ session_ops h2.
Proof. unfold session_ops. apply omap_app. Qed.

Lemma deliveries_app (h1 h2 : list Happening) :
  deliveries (h1 ++ h2) = deliveries h1 ++ deliveries h2.
Proof. unfold deliveries. apply omap_app. Qed.

Lemma session_ops_delivered (evs : list StreamEvent) :
  session_ops (map Delivered evs) = [].
Proof. induction evs as [|ev evs IH]; [reflexivity | exact IH]. Qed.

Lemma session_ops_calls (ops : list SessionOp) :
  session_ops (map SessionCall ops) = ops.
Proof.
  induction ops as [|op ops IH]; [reflexivity |].
  cbn. f_equal. exact IH.
Qed.

Lemma deliveries_delivered (evs : list StreamEvent) :
  deliveries (map Delivered evs) = evs.
Proof.
  induction evs as [|ev evs IH]; [reflexivity |].
  cbn. f_equal. exact IH.
Qed.

Lemma deliveries_calls (ops : list SessionOp) :
  deliveries (map SessionCall ops) = [].
Proof. induction ops as [|op ops IH]; [reflexivity | exact IH]. Qed.

(** ** The commit hook *)

Lemma hook_history (f : Faults) (u : UnitOfWork) :
  history (snd (commit_and_close_session f u))
  = history u ++ map SessionCall (hook_calls f).
Proof.
  destruct f as [[] [] []]; cbn; rewrite <- ?app_assoc; reflexivity.
Qed.

Lemma hook_returns (f : Faults) (u : UnitOfWork) :
  fst (commit_and_close_session f u) = hook_result f.
Proof. destruct f as [[] [] []]; reflexivity. Qed.

Lemma hook_storage (f : Faults) (u : UnitOfWork) :
  storage (snd (commit_and_close_session f u))
  = if commit_fails f then storage u else storage u ++ buffered u.
Proof. destruct f as [[] [] []]; reflexivity. Qed.

Lemma hook_closed (f : Faults) (u : UnitOfWork) :
  closed (snd (commit_and_close_session f u))
  = if close_fails f then closed u else true.
Proof. destruct f as [[] [] []]; reflexivity. Qed.

(** C5. Once the hook runs, [session.close()] is called on every exit
    path and is the last call made on the session: after a successful
    commit, and also when commit raises, in which case rollback is called
    first.  The session ends up closed whenever the close call itself goes
    through.  A failed commit is never swallowed: the hook raises, and what
    it raises is the commit's own exception unless rollback or close raise
    in turn. *)
Theorem commit_and_close_session_closes (f : Faults) (u : UnitOfWork) :
  let r := fst (commit_and_close_session f u) in
  let u' := snd (commit_and_close_session f u) in
  history u' = history u ++ map SessionCall
                 (if commit_fails f then [OpCommit; OpRollback; OpClose]
                  else [OpCommit; OpClose])
  /\ last (session_ops (history u')) = Some OpClose
  /\ closed u' = (if close_fails f then closed u else true)
  /\ r = (if commit_fails f then
            Raised (if close_fails f then CloseError
                    else if rollback_fails f then RollbackError
                    else CommitError)
          else if close_fails f then Raised CloseError else Returned tt).
Proof.
  cbn zeta. rewrite hook_history, hook_closed, hook_returns.
  rewrite session_ops_app, session_ops_calls.
  unfold hook_calls, hook_result.
  repeat split.
  - destruct (commit_fails f); rewrite last_app; reflexivity.
  - destruct (commit_fails f), (close_fails f), (rollback_fails f); reflexivity.
Qed.

(** ** The body loop *)

Lemma stream_response_shape (body : Producer) (c : Consumer) (u : UnitOfWork) :
  exists evs ws,
    snd (stream_response body c u)
    = {| storage := storage u; buffered := buffered u ++ ws;
         closed := closed u; history := history u ++ map Delivered evs |}.
Proof.
  assert (Hgone : forall u0 : UnitOfWork, exists evs ws,
             u0 = {| storage := storage u0; buffered := buffered u0 ++ ws;
                     closed := closed u0;
                     history := history u0 ++ map Delivered evs |}).
  { intros u0. exists [], []. destruct u0; cbn. rewrite !app_nil_r. reflexivity. }
  revert c u. induction body as [ws ev rest IH | ws | ws e]; intros c u;
    cbn [stream_response]; destruct (still_connected c); cbn [snd]; try apply Hgone.
  - destruct (IH (after_delivery c) (record (Delivered ev) (buffer ws u)))
      as (evs & ws' & ->).
    exists (ev :: evs), (ws ++ ws'). cbn.
    rewrite <- !app_assoc. reflexivity.
  - exists [], ws. cbn. rewrite app_nil_r. reflexivity.
  - exists [], ws. cbn. rewrite app_nil_r. reflexivity.
Qed.

(** A consumer that goes away after [k] events, before the producer is
    through: exactly the first [k] events were delivered and the producer
    was left suspended with the writes it had buffered by then. *)
Lemma stream_response_disconnect (body : Producer) (k : nat) (u : UnitOfWork) :
  k <= length (events_of body) ->
  stream_response body (DisconnectsAfter k) u
  = (ClientGone,
     {| storage := storage u; buffered := buffered u ++ writes_before k body;
        closed := closed u;
        history := history u ++ map Delivered (take k (events_of body)) |}).
Proof.
  revert k u. induction body as [ws ev rest IH | ws | ws e]; intros k u Hk.
  - destruct k as [|k].
    + cbn. destruct u; cbn. rewrite !app_nil_r. reflexivity.
    + cbn in Hk. cbn [stream_response still_connected after_delivery pred].
      rewrite IH by lia. cbn. rewrite <- !app_assoc. reflexivity.
  - cbn in Hk. assert (k = 0) as -> by lia.
    cbn. destruct u; cbn. rewrite !app_nil_r. reflexivity.
  - cbn in Hk. assert (k = 0) as -> by lia.
    cbn. destruct u; cbn. rewrite !app_nil_r. reflexivity.
Qed.

(** A sequence read to its end by a consumer that stays: every event was
    delivered and every write of the turn is buffered. *)
Lemma stream_response_drained (body : Producer) (u : UnitOfWork) :
  raises body = false ->
  stream_response body DrainsAll u
  = (BodyExhausted,
     {| storage := storage u; buffered := buffered u ++ all_writes body;
        closed := closed u;
        history := history u ++ map Delivered (events_of body) |}).
Proof.
  revert u. induction body as [ws ev rest IH | ws | ws e]; intros u Hr.
  - cbn [stream_response still_connected after_delivery].
    rewrite IH by exact Hr. cbn. rewrite <- !app_assoc. reflexivity.
  - cbn. rewrite app_nil_r. reflexivity.
  - discriminate.
Qed.


(** ** One streamed invocation *)

Lemma invocation_unfold (fw : Framework) (session : Faults)
    (svc : QueryService) (cid : N) (q : string) (opts : MessageOptions)
    (c : Consumer) (store : list Row) :
  invocation fw session svc cid q opts c store
  = match stream_response (svc cid q (secure_data opts)) c (get_session_no_commit store) with
    | (BodyExhausted, u1) => commit_and_close_session session u1
    | (BodyRaised e, u1) => (Raised e, u1)
    | (ClientGone, u1) =>
        if background_after_disconnect fw then commit_and_close_session session u1
        else (Raised ClientDisconnect, u1)
    end.
Proof. reflexivity. Qed.




(** The other half of all-or-nothing: a sequence drained to its end is
    committed whole, once, and the session is closed. *)
Lemma completed_stream_commits_everything (fw : Framework)
    (svc : QueryService) (cid : N) (q : string) (opts : MessageOptions)
    (store : list Row) :
  raises (svc cid q (secure_data opts)) = false ->
  let u' := snd (invocation fw no_faults svc cid q opts DrainsAll store) in
  storage u' = store ++ all_writes (svc cid q (secure_data opts))
  /\ session_ops (history u') = [OpCommit; OpClose]
  /\ closed u' = true.
Proof.
  intros Hr. cbn zeta. rewrite invocation_unfold.
  rewrite (stream_response_drained _ _ Hr).
  rewrite hook_storage, hook_history, hook_closed. cbn.
  rewrite session_ops_app, session_ops_delivered. repeat split.
Qed.

(** A sequence that reports its failure as a terminal error event and then
    simply ends is, for the endpoint, a sequence that ran to its end: the
    hook runs and the buffered rows are committed. *)
Lemma reported_failure_is_committed :
  storage (snd (invocation awaits_background no_faults
                  (fun _ question _ =>
                     Yield [MessageRow question] (ErrorEvent (FlowError StepLimitExceeded))
                       (Stop []))
                  1 "how many users?" plain_options DrainsAll []))
  = [MessageRow "how many users?"].
Proof. reflexivity. Qed.

(** C4 (as the code has it). The commit-or-rollback decision is made at
    most once per invocation and never before streaming is over: the trace
    is the delivered events followed by the session calls, no event is
    delivered after a session call.  It is made exactly once when the
    sequence was drained to its end, and not at all when the sequence
    raised; after a disconnect it is made once or not at all, as the
    framework awaits the background task or not. *)
Theorem decision_after_streaming (fw : Framework) (session : Faults)
    (svc : QueryService) (cid : N) (q : string) (opts : MessageOptions)
    (c : Consumer) (store : list Row) :
  let ending :=
    fst (stream_response (svc cid q (secure_data opts)) c (get_session_no_commit store)) in
  let u' := snd (invocation fw session svc cid q opts c store) in
  (exists evs ops, history u' = map Delivered evs ++ map SessionCall ops)
  /\ decisions (history u')
     = match ending with
       | BodyExhausted => 1
       | BodyRaised _ => 0
       | ClientGone => if background_after_disconnect fw then 1 else 0
       end.
Proof.
  cbn zeta. rewrite invocation_unfold.
  destruct (stream_response_shape (svc cid q (secure_data opts)) c
              (get_session_no_commit store)) as (evs & ws & Hu).
  destruct (stream_response _ c _) as [ending u1]. cbn in Hu. subst u1.
  assert (Hhook :
    (exists evs0 ops, history (snd (commit_and_close_session session
        {| storage := store; buffered := [] ++ ws; closed := false;
           history := [] ++ map Delivered evs |}))
      = map Delivered evs0 ++ map SessionCall ops)
    /\ decisions (history (snd (commit_and_close_session session
        {| storage := store; buffered := [] ++ ws; closed := false;
           history := [] ++ map Delivered evs |}))) = 1).
  { rewrite hook_history. cbn [app history]. split; [eauto |].
    unfold decisions. rewrite session_ops_app, session_ops_delivered, session_ops_calls.
    unfold hook_calls. destruct (commit_fails session); reflexivity. }
  assert (Hnone :
    (exists evs0 ops, [] ++ map Delivered evs = map Delivered evs0 ++ map SessionCall ops)
    /\ decisions ([] ++ map Delivered evs) = 0).
  { split; [exists evs, []; cbn; rewrite app_nil_r; reflexivity |].
    unfold decisions. cbn [app]. rewrite session_ops_delivered. reflexivity. }
  destruct ending as [| e |]; cbn [fst snd].
  - exact Hhook.
  - exact Hnone.
  - destruct (background_after_disconnect fw); [exact Hhook | exact Hnone].
Qed.

(** C4, as stated, fails: a sequence that raises gets no commit-or-rollback
    decision at all. *)
Lemma decision_not_always_made :
  decisions (history (snd (invocation awaits_background no_faults failing_service 1
                             "how many users?" plain_options DrainsAll [])))
  <> 1.
Proof. vm_compute. discriminate. Qed.

(** C6 (as the code has it). When the consumer goes away after [k] events,
    before the sequence is through, the endpoint neither detects it nor
    rolls back on its own account; all it has registered is the hook.
    Where the framework still awaits the background task, the hook runs as
    after any other stream: commit is attempted and the rows buffered up
    to the disconnect reach storage (rollback only if that commit raises).
    Where it does not, no session call is made at all and storage is
    unchanged. *)
Theorem disconnect_runs_no_rollback_of_its_own (fw : Framework) (session : Faults)
    (svc : QueryService) (cid : N) (q : string) (opts : MessageOptions)
    (k : nat) (store : list Row) :
  k <= length (events_of (svc cid q (secure_data opts))) ->
  let body := svc cid q (secure_data opts) in
  let r := fst (invocation fw session svc cid q opts (DisconnectsAfter k) store) in
  let u' := snd (invocation fw session svc cid q opts (DisconnectsAfter k) store) in
  deliveries (history u') = take k (events_of body)
  /\ if background_after_disconnect fw then
       session_ops (history u') = hook_calls session
       /\ storage u'
          = (if commit_fails session then store else store ++ writes_before k body)
       /\ r = hook_result session
     else
       session_ops (history u') = []
       /\ storage u' = store
       /\ r = Raised ClientDisconnect.
Proof.
  intros Hk. cbn zeta. rewrite invocation_unfold.
  rewrite (stream_response_disconnect _ k _ Hk). cbn [get_session_no_commit storage
    buffered closed history app].
  destruct (background_after_disconnect fw).
  - rewrite hook_history, hook_storage, hook_returns. cbn [history storage buffered].
    rewrite deliveries_app, session_ops_app, deliveries_delivered, deliveries_calls,
      session_ops_delivered, session_ops_calls, app_nil_r.
    repeat split.
  - cbn [fst snd history storage].
    rewrite deliveries_delivered, session_ops_delivered. repeat split.
Qed.

Lemma disconnect_runs_no_rollback_of_its_own_witness :
  deliveries (history (snd (invocation skips_background no_faults answering_service 1
                              "how many users?" plain_options (DisconnectsAfter 1) [])))
  = [SQLProposed "SELECT COUNT(*) FROM users"].
Proof.
  apply (disconnect_runs_no_rollback_of_its_own skips_background no_faults
           answering_service 1 "how many users?" plain_options 1 []).
  cbn. lia.
Defined.

(** C6, as stated, fails: the consumer leaves after the first of three
    events, the framework awaits the background task, and the hook commits
    what the abandoned turn had buffered; rollback is never called. *)
Lemma abandoned_stream_is_committed :
  let u' := snd (invocation awaits_background no_faults answering_service 1
                   "how many users?" plain_options (DisconnectsAfter 1) []) in
  OpCommit ∈ session_ops (history u')
  /\ (OpRollback ∉ session_ops (history u'))
  /\ storage u' = [MessageRow "how many users?"].
Proof.
  cbn zeta.
  change (session_ops _) with [OpCommit; OpClose].
  split; [apply elem_of_cons; left; reflexivity | split; [| reflexivity]].
  intros H. apply elem_of_cons in H as [H | H]; [discriminate |].
  apply elem_of_cons in H as [H | H]; [discriminate |].
  apply elem_of_nil in H. exact H.
Qed.

(** ** The run-sql endpoint *)

(** The endpoint's answer depends on neither [limit] nor [execute]. *)
Lemma execute_sql_ignores_limit_and_execute
    (driver : string -> Comp Database QueryRunData) (placeholder : Value)
    (cid : N) (sql : string) (linked : N)
    (limit limit' : Z) (execute execute' : bool) :
  execute_sql driver placeholder cid sql linked limit execute
  = execute_sql driver placeholder cid sql linked limit' execute'.
Proof. reflexivity. Qed.

(** What a successful call went through. *)
Lemma execute_sql_returned
    (driver : string -> Comp Database QueryRunData) (placeholder : Value)
    (cid : N) (sql : string) (linked : N) (limit : Z) (execute : bool)
    (a a' : App) (resp : SuccessResponse ResultOut) :
  execute_sql driver placeholder cid sql linked limit execute a = (Returned resp, a') ->
  exists conv conn d r d',
    conversations a !! cid = Some conv
    /\ connections a !! connection_id conv = Some conn
    /\ databases a !! dsn conn = Some d
    /\ driver sql d = (Returned r, d')
    /\ a' = set_database (dsn conn) d' a
    /\ data resp = {| out_columns := qrd_columns r;
                      out_rows := take default_row_limit (qrd_rows r);
                      out_for_chart := false;
                      out_linked_id := linked |}.
Proof.
  unfold execute_sql, bind, get_conversation, get_connection, execute_sql_query,
    query_executor, from_uri, ret.
  destruct (conversations a !! cid) as [conv|] eqn:Hconv; [| discriminate].
  destruct (connections a !! connection_id conv) as [conn|] eqn:Hconn; [| discriminate].
  destruct (databases a !! dsn conn) as [d|] eqn:Hd; [| discriminate].
  destruct (driver sql d) as [[r | e] d'] eqn:Hrun; [| discriminate].
  intros [= <- <-]. exists conv, conn, d, r, d'. repeat split; assumption.
Qed.

(** C9. Whenever [execute_sql] returns, the result it returns has
    [for_chart] false, whatever the statement. *)
Theorem execute_sql_for_chart_false
    (driver : string -> Comp Database QueryRunData) (placeholder : Value)
    (cid : N) (sql : string) (linked : N) (limit : Z) (execute : bool)
    (a a' : App) (resp : SuccessResponse ResultOut) :
  execute_sql driver placeholder cid sql linked limit execute a = (Returned resp, a') ->
  out_for_chart (data resp) = false.
Proof.
  intros H. apply execute_sql_returned in H as (? & ? & ? & ? & ? & _ & _ & _ & _ & _ & ->).
  reflexivity.
Qed.

Lemma execute_sql_for_chart_false_witness :
  out_for_chart
    {| out_columns := []; out_rows := []; out_for_chart := false; out_linked_id := 99 |}
  = false.
Proof.
  apply (execute_sql_for_chart_false table_driver stars 1 "DELETE FROM t" 99 10 true
           sample_app
           (set_database "sqlite:///demo.db"
              {| table_columns := table_columns five_rows; table_rows := [] |} sample_app)
           (mkSuccessResponse
              {| out_columns := []; out_rows := []; out_for_chart := false;
                 out_linked_id := 99 |})).
  vm_compute. reflexivity.
Defined.

(** C10. Whenever [execute_sql] returns, the result carries the caller's
    [linked_id] unchanged. *)
Theorem execute_sql_keeps_linked_id
    (driver : string -> Comp Database QueryRunData) (placeholder : Value)
    (cid : N) (sql : string) (linked : N) (limit : Z) (execute : bool)
    (a a' : App) (resp : SuccessResponse ResultOut) :
  execute_sql driver placeholder cid sql linked limit execute a = (Returned resp, a') ->
  out_linked_id (data resp) = linked.
Proof.
  intros H. apply execute_sql_returned in H as (? & ? & ? & ? & ? & _ & _ & _ & _ & _ & ->).
  reflexivity.
Qed.

Lemma execute_sql_keeps_linked_id_witness :
  out_linked_id
    {| out_columns := []; out_rows := []; out_for_chart := false; out_linked_id := 99 |}
  = 99%N.
Proof.
  apply (execute_sql_keeps_linked_id table_driver stars 1 "DELETE FROM t" 99 10 true
           sample_app
           (set_database "sqlite:///demo.db"
              {| table_columns := table_columns five_rows; table_rows := [] |} sample_app)
           (mkSuccessResponse
              {| out_columns := []; out_rows := []; out_for_chart := false;
                 out_linked_id := 99 |})).
  vm_compute. reflexivity.
Defined.

(** C2, at its own scenario: run-sql with [limit = 2] on the five-row
    table.  The limit never reaches the executor, whose default of ten
    applies: all five rows come back, with the five column names. *)
Theorem execute_sql_limit_two_returns_five_rows :
  exists resp,
    fst (execute_sql table_driver stars 1 "SELECT * FROM t" 99 2 true sample_app)
      = Returned resp
    /\ length (out_rows (data resp)) = 5
    /\ out_columns (data resp) = ["id"; "name"; "email"; "age"; "city"].
Proof. eexists. vm_compute. repeat split. Qed.

(** C3, at a mutating statement: run-sql with [execute = false] and a
    delete.  The flag never reaches the executor: the statement is
    executed and the table is emptied. *)
Theorem execute_sql_dry_run_deletes :
  databases (snd (execute_sql table_driver stars 1 "DELETE FROM t" 99 10 false sample_app))
    !! "sqlite:///demo.db"
  = Some {| table_columns := ["id"; "name"; "email"; "age"; "city"]; table_rows := [] |}.
Proof. vm_compute. reflexivity. Qed.

(** ** Masking *)


Lemma mask_rows_shape (placeholder : Value) (rs : list (list Value)) :
  map length (mask_rows placeholder rs) = map length rs.
Proof.
  induction rs as [|row rs IH]; cbn; [reflexivity |].
  rewrite length_map. f_equal. exact IH.
Qed.










(** The counting turn under [secure_data]: the one result event reaches
    the consumer with its column name and a masked cell. *)
Lemma secure_counting_turn :
  results_of_events
    (deliveries (history (snd (invocation awaits_background no_faults
                                 (masking_service stars counting_flow) 1
                                 "how many users?" secure_options DrainsAll []))))
  = [ {| out_columns := ["count"]; out_rows := [[stars]];
         out_for_chart := false; out_linked_id := 5%N |} ].
Proof. reflexivity. Qed.


(** ** The step ceiling *)

Section StepCeiling.

Variable max_steps : nat.
Variable model : list Flow.Observation -> Flow.Action.
Variable executor : string -> Flow.Observation.

Lemma proposals_app (evs1 evs2 : list StreamEvent) :
  Flow.proposals (evs1 ++ evs2) = Flow.proposals evs1 + Flow.proposals evs2.
Proof.
  induction evs1 as [|ev evs1 IH]; [reflexivity |].
  destruct ev; cbn; rewrite IH; reflexivity.
Qed.

(** Every transition out of a non-terminal state lowers the measure. *)
Lemma step_decreases (e : Flow.Engine) :
  Flow.is_terminal (Flow.state e) = false ->
  Flow.measure max_steps (Flow.step max_steps model executor e)
  < Flow.measure max_steps e.
Proof.
  unfold Flow.measure, Flow.step.
  destruct e as [st ctx c evs]. cbn.
  destruct st; cbn; intros Hterm; try discriminate; try lia.
  destruct (decide (max_steps <= c)) as [Hle | Hlt]; cbn; [lia |].
  destruct (model ctx); cbn; lia.
Qed.

(** The count of proposing cycles never passes the ceiling. *)
Lemma step_keeps_ceiling (e : Flow.Engine) :
  Flow.cycles e <= max_steps ->
  Flow.cycles (Flow.step max_steps model executor e) <= max_steps.
Proof.
  unfold Flow.step. destruct e as [st ctx c evs]. cbn.
  destruct st; cbn; intros Hc; try exact Hc.
  destruct (decide (max_steps <= c)) as [Hle | Hlt]; cbn; [exact Hc |].
  destruct (model ctx); cbn; lia.
Qed.

Lemma run_keeps_ceiling (fuel : nat) (e : Flow.Engine) :
  Flow.cycles e <= max_steps ->
  Flow.cycles (Flow.run max_steps model executor fuel e) <= max_steps.
Proof.
  revert e. induction fuel as [|fuel IH]; intros e Hc; [exact Hc |].
  cbn. destruct (Flow.is_terminal (Flow.state e)); [exact Hc |].
  apply IH, step_keeps_ceiling, Hc.
Qed.

(** Whatever the model answers, the loop reaches a terminal state within
    the measure of where it starts. *)
Lemma run_terminates (fuel : nat) (e : Flow.Engine) :
  Flow.measure max_steps e <= fuel ->
  Flow.is_terminal (Flow.state (Flow.run max_steps model executor fuel e)) = true.
Proof.
  revert e. induction fuel as [|fuel IH]; intros e Hm.
  - cbn. unfold Flow.measure in Hm.
    destruct (Flow.state e); cbn in Hm |- *; try reflexivity; lia.
  - cbn. destruct (Flow.is_terminal (Flow.state e)) eqn:Hterm; [exact Hterm |].
    apply IH. pose proof (step_decreases e Hterm). lia.
Qed.

Lemma run_terminal (fuel : nat) (e : Flow.Engine) :
  Flow.is_terminal (Flow.state e) = true ->
  Flow.run max_steps model executor fuel e = e.
Proof. intros H. destruct fuel; cbn; [| rewrite H]; reflexivity. Qed.

Lemma step_proposes (ctx : list Flow.Observation) (c : nat)
    (evs : list StreamEvent) (s : string) :
  model ctx = Flow.ProposeSQL s ->
  c < max_steps ->
  Flow.step max_steps model executor {| Flow.state := Flow.Proposing; Flow.context := ctx;
          Flow.cycles := c; Flow.emitted := evs |}
  = {| Flow.state := Flow.Executing s; Flow.context := ctx;
       Flow.cycles := S c; Flow.emitted := evs ++ [SQLProposed s] |}.
Proof.
  intros Hmodel Hc. unfold Flow.step. cbn [Flow.state Flow.cycles Flow.context].
  destruct (decide (max_steps <= c)) as [Hle | _]; [lia |].
  rewrite Hmodel. reflexivity.
Qed.

(** One full cycle against a model that proposes: propose, execute,
    observe, and back to proposing with one more cycle counted. *)
Lemma run_one_cycle (fuel : nat) (ctx : list Flow.Observation) (c : nat)
    (evs : list StreamEvent) (s : string) :
  model ctx = Flow.ProposeSQL s ->
  c < max_steps ->
  Flow.run max_steps model executor (3 + fuel) {| Flow.state := Flow.Proposing; Flow.context := ctx;
                    Flow.cycles := c; Flow.emitted := evs |}
  = Flow.run max_steps model executor fuel {| Flow.state := Flow.Proposing;
                Flow.context := ctx ++ [executor s];
                Flow.cycles := S c;
                Flow.emitted :=
                  evs ++ [SQLProposed s; Flow.observation_event (executor s);
                          ReasoningStep "observed"] |}.
Proof.
  intros Hmodel Hc.
  change (3 + fuel) with (S (S (S fuel))).
  cbn [Flow.run Flow.is_terminal Flow.state].
  rewrite !(step_proposes ctx c evs s Hmodel Hc). cbn.
  rewrite <- !app_assoc. reflexivity.
Qed.

(** From a proposing state [d] cycles short of the ceiling, a proposing
    model is asked exactly [d] more times before the engine fails. *)
Lemma run_to_ceiling (d : nat) :
  Flow.always_proposes model ->
  forall (extra : nat) (ctx : list Flow.Observation) (c : nat) (evs : list StreamEvent),
    c + d = max_steps ->
    let final := Flow.run max_steps model executor (3 * d + 1 + extra)
                   {| Flow.state := Flow.Proposing; Flow.context := ctx;
                      Flow.cycles := c; Flow.emitted := evs |} in
    Flow.state final = Flow.Failed StepLimitExceeded
    /\ Flow.cycles final = max_steps
    /\ Flow.proposals (Flow.emitted final) = Flow.proposals evs + d
    /\ last (Flow.emitted final) = Some (ErrorEvent (FlowError StepLimitExceeded)).
Proof.
  intros Hmodel. induction d as [|d IH]; intros extra ctx c evs Hc; cbn zeta.
  - assert (c = max_steps) as -> by lia.
    change (3 * 0 + 1 + extra) with (S extra).
    cbn [Flow.run Flow.is_terminal Flow.state].
    unfold Flow.step. cbn [Flow.state Flow.cycles].
    destruct (decide (max_steps <= max_steps)) as [_ | Hn]; [| lia].
    rewrite run_terminal by reflexivity.
    cbn. rewrite proposals_app, last_snoc. cbn. repeat split; lia.
  - destruct (Hmodel ctx) as [s Hs].
    replace (3 * S d + 1 + extra) with (3 + (3 * d + 1 + extra)) by lia.
    rewrite (run_one_cycle _ ctx c evs s Hs) by lia.
    specialize (IH extra (ctx ++ [executor s]) (S c)
                  (evs ++ [SQLProposed s; Flow.observation_event (executor s);
                           ReasoningStep "observed"])).
    cbn zeta in IH. destruct IH as (H1 & H2 & H3 & H4); [lia |].
    repeat split; try assumption.
    rewrite H3, proposals_app. cbn.
    destruct (executor s); cbn; lia.
Qed.

End StepCeiling.

(** C8. An engine with ceiling [max_steps], run against a model that
    always proposes further SQL, ends in [Failed StepLimitExceeded] after
    exactly [max_steps] proposing cycles: the cycle count and the number of
    proposals emitted are both [max_steps] at the end, the terminal error
    event is the last one emitted, and at no point of the run does the
    count pass [max_steps].  The loop gets there in [3 * max_steps + 2]
    transitions, and more fuel changes nothing.  Whatever the model
    answers, the ceiling makes the loop terminate: it is in a terminal
    state within [3 * max_steps + 5] transitions. *)
Theorem step_ceiling_fails_after_max_steps (max_steps : nat)
    (model : list Flow.Observation -> Flow.Action)
    (executor : string -> Flow.Observation) (extra : nat) :
  Flow.always_proposes model ->
  let final := Flow.run max_steps model executor (3 * max_steps + 2 + extra) Flow.start in
  Flow.state final = Flow.Failed StepLimitExceeded
  /\ Flow.cycles final = max_steps
  /\ Flow.proposals (Flow.emitted final) = max_steps
  /\ last (Flow.emitted final) = Some (ErrorEvent (FlowError StepLimitExceeded))
  /\ (forall fuel,
        Flow.cycles (Flow.run max_steps model executor fuel Flow.start) <= max_steps)
  /\ (forall any_model,
        Flow.is_terminal
          (Flow.state (Flow.run max_steps any_model executor
                         (3 * max_steps + 5 + extra) Flow.start)) = true).
Proof.
  intros Hmodel. cbn zeta.
  assert (Hterm : forall any_model,
             Flow.is_terminal
               (Flow.state (Flow.run max_steps any_model executor
                              (3 * max_steps + 5 + extra) Flow.start)) = true).
  { intros any_model. apply run_terminates. unfold Flow.measure. cbn. lia. }
  replace (3 * max_steps + 2 + extra) with (S (3 * max_steps + 1 + extra)) by lia.
  cbn [Flow.run Flow.start Flow.is_terminal Flow.state].
  pose proof (run_to_ceiling max_steps model executor max_steps Hmodel extra
                [] 0 ([] ++ [ReasoningStep "context loaded"]) eq_refl) as H.
  cbn zeta in H. destruct H as (H1 & H2 & H3 & H4).
  repeat split; try assumption.
  intros fuel. apply run_keeps_ceiling. cbn. lia.
Qed.

Lemma step_ceiling_fails_after_max_steps_witness :
  Flow.state (Flow.run 3 Flow.stubborn_model Flow.empty_executor (3 * 3 + 2 + 0) Flow.start)
  = Flow.Failed StepLimitExceeded.
Proof.
  apply (step_ceiling_fails_after_max_steps 3 Flow.stubborn_model Flow.empty_executor 0).
  intros ctx. exists "SELECT 1". reflexivity.
Defined.

(** * Further properties of the router *)

(** ** Run-sql: the lookups come first *)

(** X1. Run-sql on a conversation id that is not stored raises the
    lookup's [NotFound]; no connection is looked up, no statement is run,
    and the application and the external databases are as before. *)
Theorem execute_sql_unknown_conversation
    (driver : string -> Comp Database QueryRunData) (placeholder : Value)
    (cid : N) (sql : string) (linked : N) (limit : Z) (execute : bool) (a : App) :
  conversations a !! cid = None ->
  execute_sql driver placeholder cid sql linked limit execute a
  = (Raised (NotFound "conversation"), a).
Proof.
  intros H. unfold execute_sql, bind, get_conversation. rewrite H. reflexivity.
Qed.

Lemma execute_sql_unknown_conversation_witness :
  execute_sql table_driver stars 2 "DELETE FROM t" 99 10 true sample_app
  = (Raised (NotFound "conversation"), sample_app).
Proof.
  apply (execute_sql_unknown_conversation table_driver stars 2 "DELETE FROM t" 99 10 true
           sample_app).
  vm_compute. reflexivity.
Defined.

(** X2. Run-sql on a conversation whose connection is gone raises
    [NotFound] for the connection, again before any statement is run:
    the state is unchanged. *)
Theorem execute_sql_missing_connection
    (driver : string -> Comp Database QueryRunData) (placeholder : Value)
    (cid : N) (sql : string) (linked : N) (limit : Z) (execute : bool)
    (a : App) (conv : Conversation) :
  conversations a !! cid = Some conv ->
  connections a !! connection_id conv = None ->
  execute_sql driver placeholder cid sql linked limit execute a
  = (Raised (NotFound "connection"), a).
Proof.
  intros Hconv Hconn. unfold execute_sql, bind, get_conversation, get_connection.
  rewrite Hconv, Hconn. reflexivity.
Qed.

Lemma execute_sql_missing_connection_witness :
  execute_sql table_driver stars 1 "DELETE FROM t" 99 10 true
    {| conversations := conversations sample_app; connections := ∅;
       databases := databases sample_app |}
  = (Raised (NotFound "connection"),
     {| conversations := conversations sample_app; connections := ∅;
        databases := databases sample_app |}).
Proof.
  apply (execute_sql_missing_connection table_driver stars 1 "DELETE FROM t" 99 10 true
           {| conversations := conversations sample_app; connections := ∅;
              databases := databases sample_app |}
           {| connection_id := 7; conversation_name := "demo" |}).
  - vm_compute. reflexivity.
  - vm_compute. reflexivity.
Defined.

(** ** The commit hook: what reaches storage *)

(** X5. A normal return of the hook means the turn is settled: every
    buffered write is in storage, after the rows that were there, nothing
    is left buffered and the session is closed. *)
Theorem hook_return_means_committed (f : Faults) (u : UnitOfWork) :
  fst (commit_and_close_session f u) = Returned tt ->
  let u' := snd (commit_and_close_session f u) in
  storage u' = storage u ++ buffered u
  /\ buffered u' = []
  /\ closed u' = true
  /\ commit_fails f = false
  /\ close_fails f = false.
Proof.
  destruct f as [[] [] []]; cbn; intros H; try discriminate H; repeat split.
Qed.

Lemma hook_return_means_committed_witness :
  storage (snd (commit_and_close_session no_faults
                  {| storage := [MessageRow "earlier turn"];
                     buffered := [MessageRow "how many users?"];
                     closed := false; history := [] |}))
  = [MessageRow "earlier turn"] ++ [MessageRow "how many users?"].
Proof.
  apply (hook_return_means_committed no_faults
           {| storage := [MessageRow "earlier turn"];
              buffered := [MessageRow "how many users?"];
              closed := false; history := [] |}).
  reflexivity.
Defined.

(** X6. When commit raises, the hook raises and storage is exactly what
    it was: none of the buffered writes gets through.  The writes are gone
    from the session as soon as rollback or close goes through; they stay
    buffered only when both of those raise as well. *)
Theorem hook_failed_commit_stores_nothing (f : Faults) (u : UnitOfWork) :
  commit_fails f = true ->
  let u' := snd (commit_and_close_session f u) in
  storage u' = storage u
  /\ buffered u' = (if rollback_fails f && close_fails f then buffered u else [])
  /\ exists e, fst (commit_and_close_session f u) = Raised e.
Proof.
  destruct f as [[] [] []]; cbn; intros H; try discriminate H;
    repeat split; eexists; reflexivity.
Qed.

Lemma hook_failed_commit_stores_nothing_witness :
  storage (snd (commit_and_close_session
                  {| commit_fails := true; rollback_fails := false; close_fails := false |}
                  {| storage := [MessageRow "earlier turn"];
                     buffered := [MessageRow "how many users?"];
                     closed := false; history := [] |}))
  = [MessageRow "earlier turn"].
Proof.
  apply (hook_failed_commit_stores_nothing
           {| commit_fails := true; rollback_fails := false; close_fails := false |}
           {| storage := [MessageRow "earlier turn"];
              buffered := [MessageRow "how many users?"];
              closed := false; history := [] |}).
  reflexivity.
Defined.

(** ** The streamed endpoint with a consumer that stays *)

Lemma stream_response_drains (body : Producer) (u : UnitOfWork) :
  stream_response body DrainsAll u
  = (match raised_by body with
     | Some e => BodyRaised e
     | None => BodyExhausted
     end,
     {| storage := storage u; buffered := buffered u ++ all_writes body;
        closed := closed u;
        history := history u ++ map Delivered (events_of body) |}).
Proof.
  revert u. induction body as [ws ev rest IH | ws | ws e]; intros u.
  - cbn [stream_response still_connected after_delivery raised_by].
    rewrite IH. cbn. rewrite <- !app_assoc. reflexivity.
  - cbn. rewrite app_nil_r. reflexivity.
  - cbn. rewrite app_nil_r. reflexivity.
Qed.

(** X7. A sequence that ends without an exception, read by a consumer
    that stays to the end: every event is delivered, in the producer's
    order, and only then the hook runs, once.  If commit goes through, all
    the writes of the turn are in storage; if it raises, none is, although
    the consumer has already received the whole answer, and the failure
    surfaces only as the hook's exception. *)
Theorem drained_stream_outcome (fw : Framework) (session : Faults)
    (svc : QueryService) (cid : N) (q : string) (opts : MessageOptions)
    (store : list Row) :
  raised_by (svc cid q (secure_data opts)) = None ->
  let body := svc cid q (secure_data opts) in
  let r := fst (invocation fw session svc cid q opts DrainsAll store) in
  let u' := snd (invocation fw session svc cid q opts DrainsAll store) in
  history u' = map Delivered (events_of body) ++ map SessionCall (hook_calls session)
  /\ storage u' = (if commit_fails session then store else store ++ all_writes body)
  /\ r = hook_result session.
Proof.
  intros Hend. cbn zeta. rewrite invocation_unfold, stream_response_drains, Hend.
  rewrite hook_history, hook_storage, hook_returns. cbn. repeat split.
Qed.

Lemma drained_stream_outcome_witness :
  storage (snd (invocation skips_background no_faults answering_service 1
                  "how many users?" plain_options DrainsAll []))
  = [MessageRow "how many users?"; ResultRow count_result; MessageRow "There are 3 users."].
Proof.
  apply (drained_stream_outcome skips_background no_faults answering_service 1
           "how many users?" plain_options []).
  reflexivity.
Defined.

(** X8. A sequence that raises, read by a consumer that stays: the events
    produced before the exception were all delivered, the exception is the
    one that propagates, and the endpoint makes no call on the session at
    all: no commit, no rollback, and no close either, so the session is
    left open. *)
Theorem raising_stream_leaves_session_alone (fw : Framework) (session : Faults)
    (svc : QueryService) (cid : N) (q : string) (opts : MessageOptions)
    (store : list Row) (e : Exn) :
  raised_by (svc cid q (secure_data opts)) = Some e ->
  let body := svc cid q (secure_data opts) in
  let r := fst (invocation fw session svc cid q opts DrainsAll store) in
  let u' := snd (invocation fw session svc cid q opts DrainsAll store) in
  history u' = map Delivered (events_of body)
  /\ session_ops (history u') = []
  /\ closed u' = false
  /\ r = Raised e.
Proof.
  intros Hend. cbn zeta. rewrite invocation_unfold, stream_response_drains, Hend.
  cbn. rewrite session_ops_delivered. repeat split.
Qed.

Lemma raising_stream_leaves_session_alone_witness :
  closed (snd (invocation awaits_background no_faults failing_service 1
                 "how many users?" plain_options DrainsAll []))
  = false.
Proof.
  apply (raising_stream_leaves_session_alone awaits_background no_faults failing_service 1
           "how many users?" plain_options [] (FlowError StepLimitExceeded)).
  reflexivity.
Defined.

(** ** The messages endpoint *)

Lemma comprehension_outcome {A B : Type} (f : A -> Result B) (xs : list A) :
  match comprehension f xs with
  | Returned ys => Forall2 (fun x y => f x = Returned y) xs ys
  | Raised e =>
      exists before x after,
        xs = before ++ x :: after
        /\ Forall (fun x0 => exists y, f x0 = Returned y) before
        /\ f x = Raised e
  end.
Proof.
  induction xs as [|x rest IH]; cbn; [constructor |].
  destruct (f x) as [y | e] eqn:Hx.
  - destruct (comprehension f rest) as [ys | e].
    + constructor; assumption.
    + destruct IH as (before & x' & after & -> & Hbefore & Hx').
      exists (x :: before), x', after. repeat split; [| exact Hx'].
      constructor; [eauto | exact Hbefore].
  - exists [], x, rest. repeat split; [constructor | exact Hx].
Qed.

(** X9. When the service finds the conversation, the messages endpoint
    answers with one validated entry per stored message, in the stored
    order (an empty conversation gives an empty list), or it raises as a
    whole: the exception is that of the first message that does not
    validate, every message before it having validated.  The endpoint
    adds no state change to what the service did. *)
Theorem get_conversation_messages_outcome
    (St Message MessageWithResultsOut ConversationWithMessages : Type)
    (messages : ConversationWithMessages -> list Message)
    (service : N -> Comp St ConversationWithMessages)
    (model_validate : Message -> Result MessageWithResultsOut)
    (cid : N) (s s' : St) (conversation : ConversationWithMessages) :
  service cid s = (Returned conversation, s') ->
  let answer :=
    get_conversation_messages St Message MessageWithResultsOut ConversationWithMessages
      messages service model_validate cid s in
  snd answer = s'
  /\ match fst answer with
     | Returned resp =>
         Forall2 (fun m out => model_validate m = Returned out)
           (messages conversation) (list_data resp)
     | Raised e =>
         exists before m after,
           messages conversation = before ++ m :: after
           /\ Forall (fun m0 => exists out, model_validate m0 = Returned out) before
           /\ model_validate m = Raised e
     end.
Proof.
  intros Hservice. cbn zeta. unfold get_conversation_messages, bind, ret.
  rewrite Hservice.
  pose proof (comprehension_outcome model_validate (messages conversation)) as H.
  destruct (comprehension model_validate (messages conversation)) as [outs | e];
    cbn; split; auto.
Qed.

Lemma get_conversation_messages_outcome_witness :
  snd (get_conversation_messages unit string string (list string) (fun c => c)
         stored_messages non_empty_message 2 tt)
  = tt.
Proof.
  apply (get_conversation_messages_outcome unit string string (list string) (fun c => c)
           stored_messages non_empty_message 2 tt tt ["hello"; ""; "bye"]).
  reflexivity.
Defined.

(** ** Invariants of every streamed invocation *)

Lemma stream_response_delivers_prefix (body : Producer) (c : Consumer) (u : UnitOfWork) :
  exists k ws,
    snd (stream_response body c u)
    = {| storage := storage u; buffered := buffered u ++ ws;
         closed := closed u;
         history := history u ++ map Delivered (take k (events_of body)) |}.
Proof.
  assert (Hgone : forall (p : Producer) (u0 : UnitOfWork), exists k ws,
             u0 = {| storage := storage u0; buffered := buffered u0 ++ ws;
                     closed := closed u0;
                     history := history u0 ++ map Delivered (take k (events_of p)) |}).
  { intros p u0. exists 0, []. destruct u0; cbn. rewrite !app_nil_r. reflexivity. }
  revert c u. induction body as [ws ev rest IH | ws | ws e]; intros c u;
    cbn [stream_response]; destruct (still_connected c); cbn [snd]; try apply Hgone.
  - destruct (IH (after_delivery c) (record (Delivered ev) (buffer ws u)))
      as (k & ws' & ->).
    exists (S k), (ws ++ ws'). cbn. rewrite <- !app_assoc. reflexivity.
  - exists 0, ws. cbn. rewrite app_nil_r. reflexivity.
  - exists 0, ws. cbn. rewrite app_nil_r. reflexivity.
Qed.

(** X10. Whatever the framework, the session faults, the service and the
    consumer do, a streamed invocation delivers an initial segment of the
    producer's events, in the producer's order, and never removes or
    reorders what storage already held: the rows present before the
    invocation are still there, in front, afterwards. *)
Theorem invocation_invariants (fw : Framework) (session : Faults)
    (svc : QueryService) (cid : N) (q : string) (opts : MessageOptions)
    (c : Consumer) (store : list Row) :
  let u' := snd (invocation fw session svc cid q opts c store) in
  deliveries (history u') `prefix_of` events_of (svc cid q (secure_data opts))
  /\ store `prefix_of` storage u'.
Proof.
  cbn zeta. rewrite invocation_unfold.
  destruct (stream_response_delivers_prefix (svc cid q (secure_data opts)) c
              (get_session_no_commit store)) as (k & ws & Hu).
  destruct (stream_response _ c _) as [ending u1]. cbn in Hu. subst u1.
  assert (Htake : forall evs : list StreamEvent, take k evs `prefix_of` evs).
  { intros evs. exists (drop k evs). symmetry. apply take_drop. }
  assert (Hhook :
    deliveries (history (snd (commit_and_close_session session
        {| storage := store; buffered := ws; closed := false;
           history := map Delivered (take k (events_of (svc cid q (secure_data opts)))) |})))
      `prefix_of` events_of (svc cid q (secure_data opts))
    /\ store `prefix_of` storage (snd (commit_and_close_session session
        {| storage := store; buffered := ws; closed := false;
           history := map Delivered (take k (events_of (svc cid q (secure_data opts)))) |}))).
  { rewrite hook_history, hook_storage. cbn [history storage buffered].
    rewrite deliveries_app, deliveries_delivered, deliveries_calls, app_nil_r.
    split; [apply Htake |].
    destruct (commit_fails session); [reflexivity | exists ws; reflexivity]. }
  assert (Hnone :
    deliveries (map Delivered (take k (events_of (svc cid q (secure_data opts)))))
      `prefix_of` events_of (svc cid q (secure_data opts))
    /\ store `prefix_of` store).
  { rewrite deliveries_delivered. split; [apply Htake | reflexivity]. }
  destruct ending as [| e |]; cbn [fst snd app history storage].
  - exact Hhook.
  - exact Hnone.
  - destruct (background_after_disconnect fw); [exact Hhook | exact Hnone].
Qed.
